(** * The ASCII input reader's field mapping and the [None] log writer

    A shallow embedding of [src/InputReaderAscii.h] and
    [src/logging/writers/None.h].

    The two headers define inline: the default constructor of
    [FieldMapping], [FieldMapping::IsEmpty], [InputReaderAscii::Instantiate],
    [None::Instantiate], [None::DoWrite], [None::DoSetBuf], [None::DoFlush]
    and [None::DoFinish].  Everything else they mention is only declared
    there (the bodies live in [InputReaderAscii.cc], [None.cc],
    [InputReader.h], [WriterBackend.h], ...); what the properties below need
    of those parts is either modelled from the specification and marked as
    such, or taken as an argument.

    Methods are written in state-passing style: a method of a class takes
    the object ([this]) as its last argument and returns its result
    together with the object as the call leaves it. *)

From Stdlib Require Import ZArith List String Ascii Bool Lia.
Import ListNotations.
Local Open Scope string_scope.
Local Open Scope Z_scope.

(** ** Types the headers use but do not declare *)

(** Modelled from the spec: [TypeTag] is declared outside the two headers.
    Section 3 gives it as a closed enumeration of value kinds with one
    container kind. *)
Inductive TypeTag : Type :=
| TYPE_BOOL
| TYPE_INT
| TYPE_COUNT
| TYPE_DOUBLE
| TYPE_TIME
| TYPE_INTERVAL
| TYPE_STRING
| TYPE_CONTAINER.

(** A C++ [double], kept as its 64-bit pattern: no arithmetic is done on it
    here. *)
Definition double : Type := Z.

(** Modelled from the spec: [LogField] / [threading::Field], an entry of the
    output schema (section 3: name, type, and the element type of a
    container). *)
Record Field : Type := mkField {
  field_name : string;
  field_type : TypeTag;
  field_elementType : TypeTag
}.

Definition LogField : Type := Field.

(** Modelled from the spec: [LogVal] / [threading::Value], a tagged value
    with a presence flag (section 3); the container payload holds values
    again (section 9). *)
Inductive Value : Type :=
| mkValue (val_type : TypeTag) (present : bool) (payload : Payload)
with Payload : Type :=
| bool_val (b : bool)
| int_val (i : Z)
| count_val (c : Z)
| double_val (d : double)
| string_val (s : string)
| set_val (elems : list Value)
| no_val.

Definition val_type (v : Value) : TypeTag := let (t, _, _) := v in t.
Definition present (v : Value) : bool := let (_, p, _) := v in p.
Definition payload (v : Value) : Payload := let (_, _, p) := v in p.

(** Modelled from the spec: [RotateInfo] (section 3). *)
Record RotateInfo : Type := mkRotateInfo {
  newPath : string;
  openTime : double;
  closeTime : double;
  terminating : bool
}.

(** ** [struct FieldMapping] (InputReaderAscii.h, lines 12-25) *)

(** [position] is a C++ [int]; it is only stored and compared with [-1]. *)
Record FieldMapping : Type := mkFieldMapping {
  name : string;
  type : TypeTag;
  set_type : TypeTag;
  position : Z
}.

(** [FieldMapping() { position = -1; }].  [name] is default-constructed (the
    empty string).  The constructor does not initialise [type] and
    [set_type]: what they hold is indeterminate, and is given here by the two
    arguments. *)
Definition FieldMapping_default (indet_type indet_set_type : TypeTag)
  : FieldMapping :=
  {| name := "";
     type := indet_type;
     set_type := indet_set_type;
     position := -1 |}.

(** [bool IsEmpty() { return position == -1; }] *)
Definition IsEmpty (this : FieldMapping) : bool :=
  position this =? -1.

(** Modelled from the spec: the four-argument constructor is only declared
    in the header; it stores its arguments (section 4.1: position is the
    column's index, type and element type are copied from the Field). *)
Definition FieldMapping_4 (arg_name : string) (arg_type arg_set_type : TypeTag)
    (arg_position : Z) : FieldMapping :=
  {| name := arg_name;
     type := arg_type;
     set_type := arg_set_type;
     position := arg_position |}.

(** ** Configuration

    Modelled from the spec: section 4.1 leaves the column separator of the
    header line to configuration and to the concrete line format, which is
    outside the two headers. *)
Record Config : Type := mkConfig {
  separator : ascii
}.

(** The pieces of [s] between the occurrences of [sep], in order. *)
Fixpoint split_string (sep : ascii) (s : string) : list string :=
  match s with
  | EmptyString => [""]
  | String c rest =>
      if Ascii.eqb c sep then "" :: split_string sep rest
      else match split_string sep rest with
           | [] => [String c ""]
           | piece :: pieces => String c piece :: pieces
           end
  end.

(** ** Schema mapping (section 4.1) *)

(** Index of the first column called [wanted]. *)
Fixpoint find_column (wanted : string) (columns : list string) : option nat :=
  match columns with
  | [] => None
  | c :: rest =>
      if String.eqb c wanted then Some 0%nat
      else option_map S (find_column wanted rest)
  end.

(** What the uninitialised [type] and [set_type] of the default-constructed
    mappings hold during one run of the derivation: the pair for the
    mapping of the k-th Field.  Nothing fixes these values, and two runs
    need not see the same ones. *)
Definition Indeterminate : Type := nat -> TypeTag * TypeTag.

(** The sentinel the derivation emits for a Field without a column: a
    default-constructed [FieldMapping], with whatever its two type tags
    hold. *)
Definition empty_mapping (indet : TypeTag * TypeTag) : FieldMapping :=
  FieldMapping_default (fst indet) (snd indet).

(** Modelled from the spec: the derivation step of
    [InputReaderAscii::ReadHeader], whose body is in InputReaderAscii.cc.
    Section 4.1: for each required Field, search the external column list
    for a column of the Field's name; if found, emit a mapping with that
    column's index and the Field's type and element type; if not, emit an
    empty mapping. *)
Definition derive_mapping (indet : TypeTag * TypeTag) (columns : list string)
    (f : LogField) : FieldMapping :=
  match find_column (field_name f) columns with
  | Some i =>
      FieldMapping_4 (field_name f) (field_type f) (field_elementType f)
        (Z.of_nat i)
  | None => empty_mapping indet
  end.

(** The mappings of [fields], the first of which is the [k]-th Field of the
    schema. *)
Fixpoint derive_columnMap_from (k : nat) (indet : Indeterminate)
    (fields : list LogField) (columns : list string) : list FieldMapping :=
  match fields with
  | [] => []
  | f :: rest =>
      derive_mapping (indet k) columns f
        :: derive_columnMap_from (S k) indet rest columns
  end.

Definition derive_columnMap (indet : Indeterminate) (fields : list LogField)
    (columns : list string) : list FieldMapping :=
  derive_columnMap_from 0 indet fields columns.

(** What section 8 compares between two derivations. *)
Definition mapping_tuple (m : FieldMapping) : string * TypeTag * Z :=
  (name m, type m, position m).

(** ** [class InputReader] (base class, not in the two headers) *)
Module InputReader.

(** Modelled from the spec: the reader lifecycle of section 4.3. *)
Inductive State : Type := Uninitialized | Ready | Updating | Finished.

Record t : Type := mk { state : State }.

End InputReader.

(** ** [class InputReaderAscii] (InputReaderAscii.h, lines 28-61) *)
Module InputReaderAscii.

(** The object: the base-class part and the members of lines 49-57.
    [file] is the [ifstream*]: [None] when no stream is held, otherwise the
    lines not yet read.  [fields] is the array of [num_fields] schema
    entries. *)
Record t : Type := mk {
  base : InputReader.t;
  file : option (list string);
  fname : string;
  num_fields : Z;
  idx_fields : Z;
  columnMap : list FieldMapping;
  fields : list LogField
}.

Definition set_columnMap (cm : list FieldMapping) (this : t) : t :=
  mk (base this) (file this) (fname this) (num_fields this) (idx_fields this)
     cm (fields this).

Definition set_file (f : option (list string)) (this : t) : t :=
  mk (base this) f (fname this) (num_fields this) (idx_fields this)
     (columnMap this) (fields this).

(** Modelled from the spec: the constructor (body in InputReaderAscii.cc);
    a new reader is Uninitialized and holds no source. *)
Definition new : t :=
  mk (InputReader.mk InputReader.Uninitialized) None "" 0 0 [] [].

(** [static InputReader* Instantiate() { return new InputReaderAscii; }] *)
Definition Instantiate : t := new.

(** Modelled from the spec: [GetLine] (body in InputReaderAscii.cc) takes
    the next line of the source, if there is one. *)
Definition GetLine (this : t) : option string * t :=
  match file this with
  | Some (line :: rest) => (Some line, set_file (Some rest) this)
  | _ => (None, this)
  end.

(** Modelled from the spec: [ReadHeader] (body in InputReaderAscii.cc).
    Sections 4.1 and 6: the header line declares the external column names;
    the mapping derived from it replaces [columnMap] wholesale.  A Field
    without a column is not a failure here.  Without a header line nothing
    is derived and the call fails. *)
Definition ReadHeader (cfg : Config) (indet : Indeterminate) (this : t)
  : bool * t :=
  match GetLine this with
  | (Some line, this') =>
      (true,
       set_columnMap
         (derive_columnMap indet (fields this')
            (split_string (separator cfg) line))
         this')
  | (None, this') => (false, this')
  end.

End InputReaderAscii.

(** ** [class WriterBackend] (base class, not in the two headers) *)
Module WriterBackend.

(** Modelled from the spec: the writer lifecycle of section 4.4. *)
Inductive State : Type :=
  Uninitialized | Ready | Writing | Buffering | Rotating | Finished.

(** The [WriterFrontend*] a backend is constructed with, as an address. *)
Definition WriterFrontend : Type := Z.

(** Modelled from the spec: what a writer holds, as far as sections 4.4 and
    8 speak of it: its frontend, its lifecycle state, and the records that
    have reached its sink (the counting stub sink of section 8). *)
Record t : Type := mk {
  frontend : WriterFrontend;
  state : State;
  persisted : list (list Value)
}.

(** Modelled from the spec: the constructor [WriterBackend(frontend)]. *)
Definition new (arg_frontend : WriterFrontend) : t :=
  mk arg_frontend Uninitialized [].

End WriterBackend.

(** ** [class None] (logging/writers/None.h, lines 12-31) *)
Module None.

(** [None] adds no member to [WriterBackend]. *)
Definition t : Type := WriterBackend.t.

(** [None(WriterFrontend* frontend) : WriterBackend(frontend) {}] *)
Definition new (frontend : WriterBackend.WriterFrontend) : t :=
  WriterBackend.new frontend.

(** [static WriterBackend* Instantiate(WriterFrontend* frontend)
      { return new None(frontend); }] *)
Definition Instantiate (frontend : WriterBackend.WriterFrontend) : t :=
  new frontend.

(** [virtual bool DoWrite(int num_fields, const threading::Field* const* fields,
      threading::Value** vals) { return true; }] *)
Definition DoWrite (num_fields : Z) (fields : list Field) (vals : list Value)
    (this : t) : bool * t :=
  (true, this).

(** [virtual bool DoSetBuf(bool enabled) { return true; }] *)
Definition DoSetBuf (enabled : bool) (this : t) : bool * t :=
  (true, this).

(** [virtual bool DoFlush() { return true; }] *)
Definition DoFlush (this : t) : bool * t :=
  (true, this).

(** A call of the writer's steady state: DoWrite, DoSetBuf, DoRotate
    (lines 27-28, declared only) or DoFlush, with its arguments. *)
Inductive Call : Type :=
| Write (num_fields : Z) (fields : list Field) (vals : list Value)
| SetBuf (enabled : bool)
| Rotate (rotated_path : string) (info : RotateInfo) (terminating : bool)
| Flush.

End None.

(** ** A sample configuration and source

    The three-column source of section 8, used to run the definitions on
    concrete input. *)
Module Sample.

Definition cfg : Config := {| separator := "," |}.

Definition id_field : LogField := mkField "id" TYPE_COUNT TYPE_BOOL.
Definition name_field : LogField := mkField "name" TYPE_STRING TYPE_BOOL.
Definition tags_field : LogField := mkField "tags" TYPE_CONTAINER TYPE_STRING.
Definition ts_field : LogField := mkField "ts" TYPE_TIME TYPE_BOOL.

Definition schema : list LogField :=
  [tags_field; ts_field; id_field; name_field].

(** Two contents of the uninitialised tags of default-constructed
    mappings. *)
Definition indet : Indeterminate := fun _ => (TYPE_BOOL, TYPE_BOOL).
Definition indet_other : Indeterminate := fun _ => (TYPE_STRING, TYPE_INT).

(** A reader that has opened the source and not yet read its header. *)
Definition reader : InputReaderAscii.t :=
  InputReaderAscii.mk (InputReader.mk InputReader.Ready)
    (Some ["id,name,tags"; "1,alice,x|y"; "id,name,tags"; "2,bob,"])
    "people.log" 4 0 [] schema.


Definition writer : None.t := None.Instantiate 4096.

Definition record_1 : list Value :=
  [mkValue TYPE_COUNT true (count_val 1);
   mkValue TYPE_STRING true (string_val "alice")].

Definition info : RotateInfo :=
  {| newPath := "people-1.log"; openTime := 0; closeTime := 0;
     terminating := true |}.

End Sample.

(** ** Call sequences on the None writer, over the bodies None.h lacks

    [None::DoRotate] and [WriterBackend::DoFinish] are called or declared in
    None.h but defined elsewhere.  Here they are arguments, so that what is
    proved of a sequence of calls rests on the bodies of None.h alone. *)
Module NoneCalls.

Definition RotateBody : Type :=
  string -> RotateInfo -> bool -> None.t -> bool * None.t.

Definition FinishBody : Type := None.t -> None.t.

Definition is_rotate (c : None.Call) : bool :=
  match c with
  | None.Rotate _ _ _ => true
  | _ => false
  end.

(** The virtual call [c] on a None writer whose DoRotate is [DoRotate]. *)
Definition call (DoRotate : RotateBody) (c : None.Call) (this : None.t)
  : bool * None.t :=
  match c with
  | None.Write num_fields fields vals =>
      None.DoWrite num_fields fields vals this
  | None.SetBuf enabled => None.DoSetBuf enabled this
  | None.Rotate rotated_path info terminating =>
      DoRotate rotated_path info terminating this
  | None.Flush => None.DoFlush this
  end.

Fixpoint run (DoRotate : RotateBody) (calls : list None.Call) (this : None.t)
  : list bool * None.t :=
  match calls with
  | [] => ([], this)
  | c :: rest =>
      let (ok, this') := call DoRotate c this in
      let (oks, this'') := run DoRotate rest this' in
      (ok :: oks, this'')
  end.

(** [virtual bool DoFinish() { WriterBackend::DoFinish(); return true; }]
    on a writer whose base class finishes by [base_DoFinish]. *)
Definition DoFinish (base_DoFinish : FinishBody) (this : None.t)
  : bool * None.t :=
  let this' := base_DoFinish this in
  (true, this').

(** The Rotate calls of a sequence, and the statuses that belong to them. *)
Definition rotations (calls : list None.Call) : list None.Call :=
  filter is_rotate calls.

Definition rotation_statuses (calls : list None.Call) (statuses : list bool)
  : list bool :=
  map snd (filter (fun p => is_rotate (fst p)) (combine calls statuses)).

(** A DoRotate body to run the definitions with: it leaves an empty marker
    record in the sink, enters Rotating and refuses a terminating
    rotation. *)
Definition sample_rotate : RotateBody :=
  fun _ _ terminating this =>
    (negb terminating,
     WriterBackend.mk (WriterBackend.frontend this) WriterBackend.Rotating
       ([] :: WriterBackend.persisted this)).

Definition sample_calls : list None.Call :=
  [None.Write 2 [Sample.id_field; Sample.name_field] Sample.record_1;
   None.Rotate "people-1.log" Sample.info false;
   None.SetBuf false;
   None.Write 1 [Sample.id_field] [];
   None.Rotate "people-2.log" Sample.info true;
   None.Flush].

End NoneCalls.

(** * Properties *)

(** ** The column search *)

Lemma find_column_found (wanted : string) (columns : list string) (i : nat) :
  find_column wanted columns = Some i ->
  nth_error columns i = Some wanted /\
  forall j, (j < i)%nat -> nth_error columns j <> Some wanted.
Proof.
  revert i; induction columns as [|c rest IH]; simpl; intros i H.
  - discriminate.
  - destruct (String.eqb c wanted) eqn:E.
    + injection H as <-. apply String.eqb_eq in E. subst c.
      split; [reflexivity | intros j Hj; lia].
    + destruct (find_column wanted rest) as [i'|]; simpl in H;
        [injection H as <- | discriminate].
      destruct (IH i' eq_refl) as [Hnth Hfirst].
      split; [exact Hnth|].
      intros [|j] Hj; simpl.
      * intros [= ->]. rewrite String.eqb_refl in E. discriminate.
      * apply Hfirst. lia.
Qed.

Lemma find_column_absent (wanted : string) (columns : list string) :
  find_column wanted columns = None <-> ~ In wanted columns.
Proof.
  induction columns as [|c rest IH]; simpl.
  - tauto.
  - destruct (String.eqb c wanted) eqn:E.
    + apply String.eqb_eq in E. split; [discriminate | tauto].
    + apply String.eqb_neq in E.
      destruct (find_column wanted rest); simpl.
      * split; [discriminate|]. intros H. exfalso. apply H. right.
        destruct IH as [_ IH]. destruct (in_dec string_dec wanted rest) as [Hin|Hout];
          [exact Hin | discriminate (IH Hout)].
      * split; [|reflexivity]. intros _ [H|H]; [congruence | now apply IH].
Qed.

(** ** What ReadHeader leaves in columnMap *)

Lemma ReadHeader_reads_header (cfg : Config) (indet : Indeterminate)
    (this : InputReaderAscii.t) (line : string) (rest : list string) :
  InputReaderAscii.file this = Some (line :: rest) ->
  InputReaderAscii.ReadHeader cfg indet this =
    (true,
     InputReaderAscii.set_columnMap
       (derive_columnMap indet (InputReaderAscii.fields this)
          (split_string (separator cfg) line))
       (InputReaderAscii.set_file (Some rest) this)).
Proof.
  intros Hfile. unfold InputReaderAscii.ReadHeader, InputReaderAscii.GetLine.
  rewrite Hfile. reflexivity.
Qed.

Lemma derive_mapping_present (indet : TypeTag * TypeTag)
    (columns : list string) (f : LogField) :
  In (field_name f) columns ->
  let m := derive_mapping indet columns f in
  0 <= position m /\ IsEmpty m = false /\
  nth_error columns (Z.to_nat (position m)) = Some (field_name f) /\
  (forall j, (j < Z.to_nat (position m))%nat ->
             nth_error columns j <> Some (field_name f)) /\
  name m = field_name f /\ type m = field_type f /\
  set_type m = field_elementType f.
Proof.
  intros Hin. unfold derive_mapping.
  destruct (find_column (field_name f) columns) as [i|] eqn:E.
  - destruct (find_column_found _ _ _ E) as [Hnth Hfirst].
    cbn [FieldMapping_4 position name type set_type IsEmpty].
    rewrite Nat2Z.id.
    split; [lia|]. split; [apply Z.eqb_neq; simpl; lia|].
    split; [exact Hnth|]. split; [exact Hfirst|].
    repeat split.
  - apply find_column_absent in E. contradiction.
Qed.

Lemma derive_mapping_absent (indet : TypeTag * TypeTag)
    (columns : list string) (f : LogField) :
  ~ In (field_name f) columns ->
  derive_mapping indet columns f = empty_mapping indet.
Proof.
  intros Hout. unfold derive_mapping.
  apply find_column_absent in Hout. rewrite Hout. reflexivity.
Qed.

Lemma derive_columnMap_from_length (k0 : nat) (indet : Indeterminate)
    (fields : list LogField) (columns : list string) :
  List.length (derive_columnMap_from k0 indet fields columns) =
  List.length fields.
Proof.
  revert k0; induction fields as [|f rest IH]; intros k0; simpl.
  - reflexivity.
  - rewrite IH. reflexivity.
Qed.

Lemma derive_columnMap_from_nth (k0 : nat) (indet : Indeterminate)
    (fields : list LogField) (columns : list string) (k : nat) :
  nth_error (derive_columnMap_from k0 indet fields columns) k =
  option_map (derive_mapping (indet (k0 + k)%nat) columns)
             (nth_error fields k).
Proof.
  revert k0 k; induction fields as [|f rest IH]; intros k0 [|k]; simpl;
    try reflexivity.
  - rewrite Nat.add_0_r. reflexivity.
  - rewrite IH. replace (S k0 + k)%nat with (k0 + S k)%nat by lia.
    reflexivity.
Qed.



(** C1.  When ReadHeader finds a header line, it succeeds and leaves in
    columnMap one mapping per required Field, in schema order.  For a Field
    whose name is among the header's columns the mapping holds the index of
    that column (the first one of that name, so a position >= 0 and not the
    sentinel) and the Field's type and element type; for a Field whose name
    is not among them the mapping is the empty sentinel, with position -1,
    whatever its unset tags hold. *)
Theorem ReadHeader_columnMap_postcondition
    (cfg : Config) (indet : Indeterminate) (this : InputReaderAscii.t)
    (line : string) (rest : list string) (k : nat) (f : LogField) :
  InputReaderAscii.file this = Some (line :: rest) ->
  nth_error (InputReaderAscii.fields this) k = Some f ->
  let columns := split_string (separator cfg) line in
  let result := InputReaderAscii.ReadHeader cfg indet this in
  fst result = true /\
  List.length (InputReaderAscii.columnMap (snd result)) =
    List.length (InputReaderAscii.fields this) /\
  exists m,
    nth_error (InputReaderAscii.columnMap (snd result)) k = Some m /\
    (In (field_name f) columns ->
       0 <= position m /\ IsEmpty m = false /\
       nth_error columns (Z.to_nat (position m)) = Some (field_name f) /\
       (forall j, (j < Z.to_nat (position m))%nat ->
                  nth_error columns j <> Some (field_name f)) /\
       type m = field_type f /\ set_type m = field_elementType f) /\
    (~ In (field_name f) columns ->
       m = empty_mapping (indet k) /\ position m = -1 /\ IsEmpty m = true).
Proof.
  intros Hfile Hf columns result. subst result.
  rewrite (ReadHeader_reads_header cfg indet this line rest Hfile).
  cbn [fst snd InputReaderAscii.set_columnMap InputReaderAscii.columnMap].
  split; [reflexivity|].
  split; [apply derive_columnMap_from_length|].
  exists (derive_mapping (indet k) columns f). split.
  - unfold derive_columnMap. rewrite derive_columnMap_from_nth, Hf.
    reflexivity.
  - split.
    + intros Hin.
      destruct (derive_mapping_present (indet k) columns f Hin)
        as (H0 & Hne & Hnth & Hfirst & _ & Hty & Hset).
      repeat split; assumption.
    + intros Hout. rewrite (derive_mapping_absent (indet k) columns f Hout).
      repeat split.
Qed.

(** C5.  IsEmpty answers true exactly when position is -1, and two mappings
    with the same position get the same answer whatever their name, type
    and set_type. *)
Theorem IsEmpty_iff_position_sentinel :
  (forall m : FieldMapping, IsEmpty m = true <-> position m = -1) /\
  (forall (n n' : string) (t t' s s' : TypeTag) (p : Z),
     IsEmpty (mkFieldMapping n t s p) = IsEmpty (mkFieldMapping n' t' s' p)).
Proof.
  split.
  - intros m. unfold IsEmpty. apply Z.eqb_eq.
  - reflexivity.
Qed.

(** C9.  A default-constructed FieldMapping has position -1 and is empty,
    whatever its uninitialised members hold. *)
Theorem FieldMapping_default_is_empty (indet_type indet_set_type : TypeTag) :
  position (FieldMapping_default indet_type indet_set_type) = -1 /\
  IsEmpty (FieldMapping_default indet_type indet_set_type) = true.
Proof.
  split; reflexivity.
Qed.


(** ** The None writer *)

(** C2, as amended.  None's DoWrite does not check the array against the
    schema: called with a Value array whose length differs from the
    schema's, it returns true; it persists no record and leaves the writer
    as it was. *)
Theorem None_DoWrite_ignores_arity
    (num_fields : Z) (fields : list Field) (vals : list Value)
    (this : None.t) :
  List.length vals <> List.length fields ->
  fst (None.DoWrite num_fields fields vals this) = true /\
  WriterBackend.persisted (snd (None.DoWrite num_fields fields vals this)) =
    WriterBackend.persisted this /\
  snd (None.DoWrite num_fields fields vals this) = this.
Proof.
  intros _. repeat split.
Qed.

(** C3, as amended.  Whatever the terminating DoRotate does to the None
    writer, every later DoWrite returns true and leaves the writer as the
    rotation left it. *)
Theorem None_DoWrite_succeeds_after_terminating_rotate
    (rotate : string -> RotateInfo -> bool -> None.t -> bool * None.t)
    (rotated_path : string) (info : RotateInfo) (this : None.t)
    (later : list (Z * list Field * list Value)) :
  let rotated := snd (rotate rotated_path info true this) in
  Forall (fun w =>
            None.DoWrite (fst (fst w)) (snd (fst w)) (snd w) rotated =
            (true, rotated))
         later.
Proof.
  intros rotated. apply Forall_forall. intros w _. reflexivity.
Qed.

(** C10.  The status DoWrite returns is the same for any two calls, whatever
    num_fields, fields and vals they pass and on whatever writer: it is
    true. *)
Theorem None_DoWrite_status_independent
    (num_fields1 num_fields2 : Z) (fields1 fields2 : list Field)
    (vals1 vals2 : list Value) (this1 this2 : None.t) :
  fst (None.DoWrite num_fields1 fields1 vals1 this1) =
  fst (None.DoWrite num_fields2 fields2 vals2 this2) /\
  fst (None.DoWrite num_fields1 fields1 vals1 this1) = true.
Proof.
  split; reflexivity.
Qed.

(** ** Where the None writer departs from the general writer contract *)

(** Counterexample to C2 as stated.  That a Value array whose length
    differs from the schema's makes None's DoWrite report failure does not
    hold: one value against a schema of two fields is accepted. *)
Lemma None_DoWrite_accepts_arity_mismatch :
  ~ (forall (num_fields : Z) (fields : list Field) (vals : list Value)
            (this : None.t),
       List.length vals <> List.length fields ->
       fst (None.DoWrite num_fields fields vals this) = false).
Proof.
  intros H.
  specialize
    (H 2 [Sample.id_field; Sample.name_field]
       [mkValue TYPE_COUNT true (count_val 1)] Sample.writer).
  simpl in H. discriminate H. intros [=].
Qed.

(** Counterexample to C3 as stated.  That a DoWrite after a terminating
    rotation of the None writer reports failure does not hold, and no body
    of DoRotate could make it hold: the write of the sample record after
    the rotation returns true. *)
Lemma None_DoWrite_after_rotate_not_failing :
  ~ exists rotate : string -> RotateInfo -> bool -> None.t -> bool * None.t,
      forall (rotated_path : string) (info : RotateInfo) (this : None.t)
             (num_fields : Z) (fields : list Field) (vals : list Value),
        fst (None.DoWrite num_fields fields vals
               (snd (rotate rotated_path info true this))) = false.
Proof.
  intros [rotate H].
  specialize
    (H "people-1.log" Sample.info Sample.writer 2
       [Sample.id_field; Sample.name_field] Sample.record_1).
  simpl in H. discriminate H.
Qed.

(** ** Where two derivations may differ *)


(** ** The definitions on the sample source *)

Example sample_columnMap :
  map mapping_tuple
    (InputReaderAscii.columnMap
       (snd (InputReaderAscii.ReadHeader Sample.cfg Sample.indet_other
               Sample.reader))) =
  [("tags", TYPE_CONTAINER, 2); ("", TYPE_STRING, -1);
   ("id", TYPE_COUNT, 0); ("name", TYPE_STRING, 1)].
Proof. reflexivity. Qed.

(** The header of the sample source maps the "tags" Field to column 2. *)
Lemma ReadHeader_columnMap_postcondition_witness :
  In "tags" (split_string "," "id,name,tags") /\
  exists m,
    nth_error
      (InputReaderAscii.columnMap
         (snd (InputReaderAscii.ReadHeader Sample.cfg Sample.indet
                 Sample.reader))) 0
    = Some m /\
    0 <= position m /\ IsEmpty m = false /\
    type m = TYPE_CONTAINER /\ set_type m = TYPE_STRING.
Proof.
  assert (Hin : In "tags" (split_string "," "id,name,tags"))
    by (simpl; tauto).
  split; [exact Hin|].
  destruct
    (ReadHeader_columnMap_postcondition Sample.cfg Sample.indet Sample.reader
       "id,name,tags" ["1,alice,x|y"; "id,name,tags"; "2,bob,"] 0
       Sample.tags_field eq_refl eq_refl)
    as (_ & _ & m & Hm & Hpresent & _).
  destruct (Hpresent Hin) as (Hpos & Hne & _ & _ & Hty & Hset).
  exists m. repeat split; assumption.
Defined.


(** One value written against a schema of two fields. *)
Lemma None_DoWrite_ignores_arity_witness :
  fst (None.DoWrite 2 [Sample.id_field; Sample.name_field]
         [mkValue TYPE_COUNT true (count_val 1)] Sample.writer) = true /\
  WriterBackend.persisted
    (snd (None.DoWrite 2 [Sample.id_field; Sample.name_field]
            [mkValue TYPE_COUNT true (count_val 1)] Sample.writer)) =
    WriterBackend.persisted Sample.writer /\
  snd (None.DoWrite 2 [Sample.id_field; Sample.name_field]
         [mkValue TYPE_COUNT true (count_val 1)] Sample.writer) =
    Sample.writer.
Proof.
  apply (None_DoWrite_ignores_arity 2 [Sample.id_field; Sample.name_field]
           [mkValue TYPE_COUNT true (count_val 1)] Sample.writer).
  simpl. lia.
Defined.

(** ** Call sequences on the None writer, whatever DoRotate does *)

Lemma NoneCalls_steady_call (DoRotate : NoneCalls.RotateBody)
    (c : None.Call) (this : None.t) :
  NoneCalls.is_rotate c = false ->
  NoneCalls.call DoRotate c this = (true, this).
Proof.
  destruct c; simpl; intros H; try reflexivity; discriminate H.
Qed.

Lemma NoneCalls_run_cons (DoRotate : NoneCalls.RotateBody) (c : None.Call)
    (rest : list None.Call) (this : None.t) :
  NoneCalls.run DoRotate (c :: rest) this =
  (fst (NoneCalls.call DoRotate c this)
     :: fst (NoneCalls.run DoRotate rest
               (snd (NoneCalls.call DoRotate c this))),
   snd (NoneCalls.run DoRotate rest (snd (NoneCalls.call DoRotate c this)))).
Proof.
  simpl. destruct (NoneCalls.call DoRotate c this) as [ok this'].
  simpl. destruct (NoneCalls.run DoRotate rest this'). reflexivity.
Qed.

(** X1.  In every sequence of Write, SetBuf, Rotate and Flush calls on the
    None writer, each call that is not a Rotate reports success, wherever
    it stands in the sequence and whatever the body of DoRotate does and
    returns. *)
Theorem NoneCalls_steady_calls_succeed
    (DoRotate : NoneCalls.RotateBody) (calls : list None.Call)
    (this : None.t) :
  Forall2 (fun c ok => NoneCalls.is_rotate c = false -> ok = true)
          calls (fst (NoneCalls.run DoRotate calls this)).
Proof.
  revert this; induction calls as [|c rest IH]; intros this.
  - constructor.
  - rewrite NoneCalls_run_cons. cbn [fst]. constructor.
    + intros Hc. rewrite (NoneCalls_steady_call DoRotate c this Hc).
      reflexivity.
    + apply IH.
Qed.

Lemma NoneCalls_run_rotations (DoRotate : NoneCalls.RotateBody)
    (calls : list None.Call) (this : None.t) :
  snd (NoneCalls.run DoRotate calls this) =
    snd (NoneCalls.run DoRotate (NoneCalls.rotations calls) this).
Proof.
  revert this; induction calls as [|c rest IH]; intros this.
  - reflexivity.
  - rewrite NoneCalls_run_cons. unfold NoneCalls.rotations in *.
    cbn [snd filter].
    destruct (NoneCalls.is_rotate c) eqn:Hc.
    + rewrite NoneCalls_run_cons. cbn [snd]. apply IH.
    + rewrite (NoneCalls_steady_call DoRotate c this Hc). apply IH.
Qed.

(** X2.  Write, SetBuf and Flush calls leave no trace: striking them from a
    sequence of calls changes neither the writer the sequence ends with nor
    the statuses of the Rotate calls that remain, whatever the body of
    DoRotate does. *)
Theorem NoneCalls_steady_calls_erased
    (DoRotate : NoneCalls.RotateBody) (calls : list None.Call)
    (this : None.t) :
  snd (NoneCalls.run DoRotate calls this) =
    snd (NoneCalls.run DoRotate (NoneCalls.rotations calls) this) /\
  NoneCalls.rotation_statuses calls (fst (NoneCalls.run DoRotate calls this)) =
    fst (NoneCalls.run DoRotate (NoneCalls.rotations calls) this).
Proof.
  split; [apply NoneCalls_run_rotations|].
  revert this; induction calls as [|c rest IH]; intros this.
  - reflexivity.
  - rewrite NoneCalls_run_cons.
    unfold NoneCalls.rotations, NoneCalls.rotation_statuses in *.
    cbn [fst snd combine filter map].
    destruct (NoneCalls.is_rotate c) eqn:Hc.
    + rewrite NoneCalls_run_cons. cbn [fst snd map]. f_equal. apply IH.
    + rewrite (NoneCalls_steady_call DoRotate c this Hc). cbn [fst snd].
      apply IH.
Qed.

(** X3.  Finishing the None writer after a sequence of calls reports
    success and gives the writer that finishing after the sequence's Rotate
    calls alone gives; after Write, SetBuf and Flush calls only, it gives
    what finishing at once gives.  This holds whatever the bodies of
    WriterBackend::DoFinish and DoRotate do. *)
Theorem NoneCalls_DoFinish_after_calls
    (DoRotate : NoneCalls.RotateBody) (base_DoFinish : NoneCalls.FinishBody)
    (calls : list None.Call) (this : None.t) :
  fst (NoneCalls.DoFinish base_DoFinish
         (snd (NoneCalls.run DoRotate calls this))) = true /\
  NoneCalls.DoFinish base_DoFinish (snd (NoneCalls.run DoRotate calls this)) =
    NoneCalls.DoFinish base_DoFinish
      (snd (NoneCalls.run DoRotate (NoneCalls.rotations calls) this)) /\
  (NoneCalls.rotations calls = [] ->
   NoneCalls.DoFinish base_DoFinish (snd (NoneCalls.run DoRotate calls this)) =
     NoneCalls.DoFinish base_DoFinish this).
Proof.
  pose proof (NoneCalls_run_rotations DoRotate calls this) as Hw.
  split; [reflexivity|]. split.
  - rewrite Hw. reflexivity.
  - intros Hnone. rewrite Hw, Hnone. reflexivity.
Qed.

(** The sample sequence under a DoRotate that changes the writer and fails
    on the terminating rotation: the other calls succeed, and the writer is
    the one the two rotations make. *)
Example NoneCalls_sample_run :
  NoneCalls.run NoneCalls.sample_rotate NoneCalls.sample_calls Sample.writer =
  ([true; true; true; true; false; true],
   WriterBackend.mk 4096 WriterBackend.Rotating [[]; []]).
Proof. reflexivity. Qed.
